(** * ArchDiagram: the interactive pipeline diagram of [arch_diagram.jsx]

    The component owns two pieces of React state ([active], [hoveredLayer]),
    renders the constant [LAYERS] table as a tree of elements and installs
    three kinds of event handlers.  The development below embeds

    - the static tables [LAYERS] and [LANG_COLORS],
    - the state, the handlers and the state updates they request,
    - the render function, as a function from the state to an element tree
      (it can throw a [TypeError] when a language tag has no colour entry),

    and then proves the properties of selection, hovering, lookup and
    rendering. *)

From Stdlib Require Import String Ascii List ZArith QArith Lia.
From Stdlib Require Import DecimalString.
Import ListNotations.

Local Open Scope string_scope.
Local Open Scope list_scope.

(** ** Static data *)

Module Node.
(** [{ id, label, lang, desc }] *)
Record t : Type := mk
  { id : string; label : string; lang : string; desc : string }.
End Node.

Module Layer.
(** [{ id, label, color, nodes }] *)
Record t : Type := mk
  { id : string; label : string; color : string; nodes : list Node.t }.
End Layer.

Module LangColor.
(** [{ bg, border, text }] *)
Record t : Type := mk { bg : string; border : string; text : string }.
End LangColor.

Definition LAYERS : list Layer.t :=
  [ Layer.mk "sources" "DATA SOURCES" "#00ff9d"
      [ Node.mk "syslog" "Syslog UDP/TCP" "Python"
          "RFC 3164/5424 listener. Asyncio datagram endpoint — zero-copy reads, no threads."
      ; Node.mk "cloudtrail" "AWS CloudTrail" "Python"
          "S3 poller with watermark tracking. Gzip decompression, paginated list_objects_v2."
      ; Node.mk "webhook" "Webhook / HTTP" "Python"
          "FastAPI receiver for EDR, SaaS, and third-party security tools pushing events."
      ; Node.mk "goagent" "Go Collector Agent" "Go"
          "Deployed on customer infra. Goroutines + channels for high-throughput local collection, gRPC egress."
      ]
  ; Layer.mk "ingest" "INGESTION LAYER" "#00cfff"
      [ Node.mk "queue" "Async Event Queue" "Python"
          "asyncio.Queue (maxsize=10k). Backpressure-aware. Buffers bursts between sources and consumers."
      ; Node.mk "parser" "Rust Log Parser" "Rust"
          "Parses CEF, LEEF, JSON, syslog at wire rate. Memory-safe handling of untrusted input. Emits structured records."
      ]
  ; Layer.mk "validation" "SCHEMA & VALIDATION" "#ff9d00"
      [ Node.mk "normalizer" "Normalizer" "Python"
          "Maps parsed fields to NormalizedEvent schema (ECS-inspired). Pydantic validation, timestamp normalization."
      ; Node.mk "registry" "Schema Registry" "Python"
          "Per-source field requirements. Quarantines malformed events. Tracks field coverage over time."
      ]
  ; Layer.mk "sink" "SINK & OBSERVABILITY" "#ff4d8f"
      [ Node.mk "filesink" "File Sink (NDJSON)" "Python"
          "MVP sink: batched writes to newline-delimited JSON. Rotate to S3 or Kafka when volume justifies it."
      ; Node.mk "monitor" "Pipeline Monitor" "Python"
          "Tracks throughput per source. Fires alerts on data gaps (default: 5min silence = ALERT). Prometheus-ready."
      ]
  ].

(** The object literal [LANG_COLORS], as its own properties in insertion
    order (the order [Object.entries] enumerates them in). *)
Definition LANG_COLORS : list (string * LangColor.t) :=
  [ ("Python", LangColor.mk "#1a2a1a" "#00ff9d" "#00ff9d")
  ; ("Go",     LangColor.mk "#1a1f2a" "#00cfff" "#00cfff")
  ; ("Rust",   LangColor.mk "#2a1a1a" "#ff6b35" "#ff6b35")
  ].

(** [obj[key]] on an object literal: the value of the own property [key], or
    [undefined] ([None]). *)
Fixpoint get_prop {A : Type} (obj : list (string * A)) (key : string) : option A :=
  match obj with
  | [] => None
  | (k, v) :: rest => if String.eqb k key then Some v else get_prop rest key
  end.

(** ** State, handlers and state updates *)

(** The two [useState] cells.  Both start at [null] and are only ever set to
    [null] or to an id string. *)
Record State : Type := mkState
  { active : option string; hoveredLayer : option string }.

Definition initialState : State := mkState None None.

(** [x === id] where [x] is [null] or a string and [id] is a string. *)
Definition strict_eq (x : option string) (id : string) : bool :=
  match x with
  | Some y => String.eqb y id
  | None => false
  end.

(** What a handler closure does when it is called: one call of one of the two
    state setters, its argument already evaluated at render time. *)
Inductive Action : Type :=
| setActive (v : option string)
| setHoveredLayer (v : option string).

Definition dispatch (a : Action) (st : State) : State :=
  match a with
  | setActive v => mkState v (hoveredLayer st)
  | setHoveredLayer v => mkState (active st) v
  end.

(** [onClick={() => setActive(isActive ? null : node.id)}], with
    [isActive = (active === node.id)] taken from the render that created the
    closure. *)
Definition onClickNode (st : State) (nodeId : string) : Action :=
  let isActive := strict_eq (active st) nodeId in
  setActive (if isActive then None else Some nodeId).

(** [onMouseEnter={() => setHoveredLayer(layer.id)}] *)
Definition onMouseEnterLayer (layerId : string) : Action :=
  setHoveredLayer (Some layerId).

(** [onMouseLeave={() => setHoveredLayer(null)}] *)
Definition onMouseLeaveLayer : Action := setHoveredLayer None.

(** The operations of the component: a click on node [id], the pointer
    entering layer [id], the pointer leaving a layer. *)
Definition selectNode (id : string) (st : State) : State :=
  dispatch (onClickNode st id) st.

Definition hoverLayer (id : option string) (st : State) : State :=
  match id with
  | Some l => dispatch (onMouseEnterLayer l) st
  | None => dispatch onMouseLeaveLayer st
  end.

(** [LAYERS.flatMap(l => l.nodes)] *)
Definition allNodes : list Node.t := flat_map Layer.nodes LAYERS.

(** [LAYERS.flatMap(l => l.nodes).find(n => n.id === active)] *)
Definition activeNode (st : State) : option Node.t :=
  find (fun n => strict_eq (active st) (Node.id n)) allNodes.

(** User events and the states they lead to.  Only nodes and layers of the
    table are rendered, so only they can be clicked or hovered. *)
Inductive Event : Type :=
| Click (nodeId : string)
| MouseEnter (layerId : string)
| MouseLeave (layerId : string).

Definition step (e : Event) (st : State) : State :=
  match e with
  | Click n => selectNode n st
  | MouseEnter l => hoverLayer (Some l) st
  | MouseLeave _ => hoverLayer None st
  end.

Definition rendered (e : Event) : Prop :=
  match e with
  | Click n => In n (map Node.id allNodes)
  | MouseEnter l | MouseLeave l => In l (map Layer.id LAYERS)
  end.

Inductive reachable : State -> Prop :=
| reach_init : reachable initialState
| reach_step e st : reachable st -> rendered e -> reachable (step e st).

(** The nodes drawn as selected in state [st]. *)
Definition selectedNodes (st : State) : list Node.t :=
  filter (fun n => strict_eq (active st) (Node.id n)) allNodes.

(** ** Element trees *)

(** A value of a [style] object: a string or a number literal. *)
Inductive StyleVal : Type :=
| SStr (s : string)
| SNum (q : Q).

Definition Style : Type := list (string * StyleVal).

Inductive EventName : Type := onClick | onMouseEnter | onMouseLeave.

#[local] Set Warnings "-register-all".

(** What a JSX expression evaluates to: an element (tag, [key], handlers,
    [style], children), a fragment [<>...</>], a text, a number, or the
    [false] left by [cond && <.../>], which is not displayed. *)
Inductive VNode : Type :=
| Elem (tag : string) (key : option string)
       (handlers : list (EventName * Action)) (style : Style)
       (children : list VNode)
| Fragment (children : list VNode)
| Text (s : string)
| Num (z : Z)
| VFalse.

(** Rendering either returns a tree or throws the [TypeError] of a property
    read on [undefined]. *)
Inductive Result (A : Type) : Type :=
| Ok (a : A)
| TypeError.
Arguments Ok {A} a.
Arguments TypeError {A}.

Definition bind {A B : Type} (r : Result A) (k : A -> Result B) : Result B :=
  match r with
  | Ok a => k a
  | TypeError => TypeError
  end.

Notation "x <- r ;; k" := (bind r (fun x => k))
  (at level 61, r at next level, right associativity).

(** [xs.map(f)] where [f] may throw. *)
Fixpoint mapM {A B : Type} (f : A -> Result B) (xs : list A) : Result (list B) :=
  match xs with
  | [] => Ok []
  | x :: rest => y <- f x ;; ys <- mapM f rest ;; Ok (y :: ys)
  end.

(** [xs.map((x, i) => f(x, i))], the index counted from [i]. *)
Fixpoint mapMi {A B : Type} (f : A -> Z -> Result B) (i : Z) (xs : list A)
  : Result (list B) :=
  match xs with
  | [] => Ok []
  | x :: rest => y <- f x i ;; ys <- mapMi f (i + 1)%Z rest ;; Ok (y :: ys)
  end.

(** [o.p] where [o] may be [undefined]. *)
Definition field {A B : Type} (p : A -> B) (o : option A) : Result B :=
  match o with
  | Some a => Ok (p a)
  | None => TypeError
  end.

(** [s.toUpperCase()] on the ASCII letters; the other bytes are kept.  The
    component only calls it on language tags, which are ASCII. *)
Definition upper_ascii (c : ascii) : ascii :=
  let n := nat_of_ascii c in
  if andb (Nat.leb 97 n) (Nat.leb n 122) then ascii_of_nat (n - 32) else c.

Fixpoint toUpperCase (s : string) : string :=
  match s with
  | EmptyString => EmptyString
  | String c rest => String (upper_ascii c) (toUpperCase rest)
  end.

Definition nl : string := String (ascii_of_nat 10) EmptyString.

(** An integer number literal of a [style] object. *)
Definition num (z : Z) : StyleVal := SNum (inject_Z z).

(** ** The render function *)

Section Render.

Variable st : State.

(** The [<button>] of one node (the body of [layer.nodes.map]). *)
Definition renderNode (layer : Layer.t) (node : Node.t) : Result VNode :=
  let lc := get_prop LANG_COLORS (Node.lang node) in
  let isActive := strict_eq (active st) (Node.id node) in
  lc_text <- field LangColor.text lc ;;
  lc_bg <- field LangColor.bg lc ;;
  lc_border <- field LangColor.border lc ;;
  Ok (Elem "button" (Some (Node.id node))
        [ (onClick, setActive (if isActive then None else Some (Node.id node))) ]
        [ ("background", SStr (if isActive then Layer.color layer ++ "15"
                               else "rgba(255,255,255,0.02)"))
        ; ("border", SStr ("1px solid " ++
                           (if isActive then Layer.color layer
                            else "rgba(255,255,255,0.08)")))
        ; ("borderRadius", num 4)
        ; ("padding", SStr "14px 16px")
        ; ("cursor", SStr "pointer")
        ; ("textAlign", SStr "left")
        ; ("transition", SStr "all 0.15s")
        ; ("boxShadow", SStr (if isActive then "0 0 20px " ++ Layer.color layer ++ "20"
                              else "none"))
        ; ("transform", SStr (if isActive then "translateY(-1px)" else "none")) ]
        [ Elem "div" None []
            [ ("fontSize", num 13); ("fontWeight", num 700)
            ; ("color", SStr (if isActive then "#fff" else "#b0c4d4"))
            ; ("marginBottom", num 8)
            ; ("fontFamily", SStr "'Courier New', monospace")
            ; ("letterSpacing", SNum (5 # 10)) ]
            [ Text (Node.label node) ]
        ; Elem "div" None []
            [ ("display", SStr "inline-block")
            ; ("fontSize", num 9); ("letterSpacing", num 2)
            ; ("color", SStr lc_text); ("background", SStr lc_bg)
            ; ("border", SStr ("1px solid " ++ lc_border ++ "40"))
            ; ("padding", SStr "2px 8px"); ("borderRadius", num 2) ]
            [ Text (toUpperCase (Node.lang node)) ] ]).

(** The arrow drawn under a layer that is not the last one. *)
Definition renderArrow : VNode :=
  Elem "div" None []
    [ ("display", SStr "flex"); ("justifyContent", SStr "center")
    ; ("padding", SStr "6px 0") ]
    [ Elem "div" None []
        [ ("display", SStr "flex"); ("flexDirection", SStr "column")
        ; ("alignItems", SStr "center"); ("gap", num 2) ]
        [ Elem "div" None []
            [ ("width", num 1); ("height", num 12)
            ; ("background", SStr "linear-gradient(#ffffff20, #ffffff40)") ] []
        ; Elem "div" None []
            [ ("width", num 0); ("height", num 0)
            ; ("borderLeft", SStr "5px solid transparent")
            ; ("borderRight", SStr "5px solid transparent")
            ; ("borderTop", SStr "6px solid #ffffff40") ] [] ] ].

(** The body of [LAYERS.map((layer, li) => ...)]: the keyed wrapper holding
    the layer box and, below it, the arrow or [false]. *)
Definition renderLayer (layer : Layer.t) (li : Z) : Result VNode :=
  let hovered := strict_eq (hoveredLayer st) (Layer.id layer) in
  buttons <- mapM (renderNode layer) (Layer.nodes layer) ;;
  Ok (Elem "div" (Some (Layer.id layer)) [] []
        [ Elem "div" None
            [ (onMouseEnter, setHoveredLayer (Some (Layer.id layer)))
            ; (onMouseLeave, setHoveredLayer None) ]
            [ ("border", SStr ("1px solid " ++
                               (if hovered then Layer.color layer
                                else "rgba(255,255,255,0.06)")))
            ; ("borderRadius", num 4)
            ; ("padding", SStr "20px 24px")
            ; ("transition", SStr "border-color 0.2s")
            ; ("background", SStr (if hovered then Layer.color layer ++ "08"
                                   else "rgba(255,255,255,0.01)")) ]
            [ Elem "div" None []
                [ ("display", SStr "flex"); ("alignItems", SStr "center")
                ; ("gap", num 12); ("marginBottom", num 16) ]
                [ Elem "div" None []
                    [ ("width", num 8); ("height", num 8)
                    ; ("borderRadius", SStr "50%")
                    ; ("background", SStr (Layer.color layer))
                    ; ("boxShadow", SStr ("0 0 10px " ++ Layer.color layer))
                    ; ("flexShrink", num 0) ] []
                ; Elem "div" None []
                    [ ("fontSize", num 10); ("letterSpacing", num 4)
                    ; ("color", SStr (Layer.color layer)); ("fontWeight", num 700) ]
                    [ Text (Layer.label layer) ]
                ; Elem "div" None []
                    [ ("flex", num 1); ("height", num 1)
                    ; ("background", SStr ("linear-gradient(90deg, " ++
                                           Layer.color layer ++ "40, transparent)")) ] []
                ; Elem "div" None []
                    [ ("fontSize", num 10); ("color", SStr "#3a4a5a")
                    ; ("letterSpacing", num 1) ]
                    [ Text "LAYER "; Num (li + 1); Text " / "
                    ; Num (Z.of_nat (length LAYERS)) ] ]
            ; Elem "div" None []
                [ ("display", SStr "grid")
                ; ("gridTemplateColumns", SStr "repeat(auto-fit, minmax(180px, 1fr))")
                ; ("gap", num 10) ]
                buttons ]
        ; if (li <? Z.of_nat (length LAYERS) - 1)%Z then renderArrow else VFalse ]).

(** The detail panel: the active node's label, badge and description, or
    the prompt. *)
Definition renderDetailPanel : Result VNode :=
  content <-
    match activeNode st with
    | Some node =>
        let lc := get_prop LANG_COLORS (Node.lang node) in
        lc_text <- field LangColor.text lc ;;
        lc_border <- field LangColor.border lc ;;
        lc_bg <- field LangColor.bg lc ;;
        Ok (Fragment
              [ Elem "div" None []
                  [ ("display", SStr "flex"); ("alignItems", SStr "center")
                  ; ("gap", num 16); ("marginBottom", num 12) ]
                  [ Elem "div" None []
                      [ ("fontSize", num 16); ("fontWeight", num 700)
                      ; ("color", SStr "#fff"); ("letterSpacing", num 1) ]
                      [ Text (Node.label node) ]
                  ; Elem "div" None []
                      [ ("fontSize", num 9); ("letterSpacing", num 3)
                      ; ("color", SStr lc_text)
                      ; ("border", SStr ("1px solid " ++ lc_border ++ "50"))
                      ; ("padding", SStr "2px 10px"); ("borderRadius", num 2)
                      ; ("background", SStr lc_bg) ]
                      [ Text (toUpperCase (Node.lang node)) ] ]
              ; Elem "p" None []
                  [ ("margin", num 0); ("fontSize", num 13)
                  ; ("lineHeight", SNum (17 # 10)); ("color", SStr "#8aa0b0")
                  ; ("maxWidth", num 680) ]
                  [ Text (Node.desc node) ] ])
    | None =>
        Ok (Elem "div" None []
              [ ("color", SStr "#2a3a4a"); ("fontSize", num 12)
              ; ("letterSpacing", num 2); ("paddingTop", num 8) ]
              [ Text "▸ SELECT A NODE TO INSPECT" ])
    end ;;
  Ok (Elem "div" None []
        [ ("marginTop", num 32); ("minHeight", num 100)
        ; ("border", SStr "1px solid rgba(255,255,255,0.06)")
        ; ("borderRadius", num 4)
        ; ("padding", SStr "20px 24px")
        ; ("background", SStr "rgba(0,0,0,0.3)")
        ; ("transition", SStr "all 0.2s") ]
        [ content ]).

End Render.

(** The legend: one entry per property of [LANG_COLORS], then the caption. *)
Definition renderLegend : VNode :=
  Elem "div" None []
    [ ("marginTop", num 24); ("display", SStr "flex"); ("gap", num 24)
    ; ("flexWrap", SStr "wrap") ]
    (map (fun '(lang, lc) =>
            Elem "div" (Some lang) []
              [ ("display", SStr "flex"); ("alignItems", SStr "center")
              ; ("gap", num 8) ]
              [ Elem "div" None []
                  [ ("width", num 10); ("height", num 10); ("borderRadius", num 2)
                  ; ("background", SStr (LangColor.border lc))
                  ; ("opacity", SNum (8 # 10)) ] []
              ; Elem "span" None []
                  [ ("fontSize", num 11); ("color", SStr "#4a6070")
                  ; ("letterSpacing", num 2) ]
                  [ Text (toUpperCase lang) ] ])
         LANG_COLORS
     ++ [ Elem "div" None []
            [ ("marginLeft", SStr "auto"); ("fontSize", num 10)
            ; ("color", SStr "#2a3a4a"); ("letterSpacing", num 1) ]
            [ Text "PYTHON · GO · RUST · MVP STACK" ] ]).

Definition renderHeader : VNode :=
  Elem "div" None [] [ ("marginBottom", num 48) ]
    [ Elem "div" None []
        [ ("fontSize", num 11); ("letterSpacing", num 6); ("color", SStr "#00ff9d")
        ; ("marginBottom", num 8); ("opacity", SNum (7 # 10)) ]
        [ Text "STEALTH CYBERSEC STARTUP · DATA INFRASTRUCTURE · MVP v0.1" ]
    ; Elem "h1" None []
        [ ("fontSize", SStr "clamp(22px, 4vw, 36px)"); ("fontWeight", num 700)
        ; ("margin", num 0); ("letterSpacing", num 2); ("color", SStr "#fff")
        ; ("textShadow", SStr "0 0 30px rgba(0,255,157,0.3)") ]
        [ Text "SECURITY EVENT INGESTION PIPELINE" ]
    ; Elem "div" None []
        [ ("marginTop", num 10); ("fontSize", num 13); ("color", SStr "#5a7a8a")
        ; ("letterSpacing", num 1) ]
        [ Text "Click any node to inspect its role, tech, and implementation notes" ] ].

(** The component: the value [ArchDiagram()] returns when the two state
    cells hold [st]. *)
Definition ArchDiagram (st : State) : Result VNode :=
  layers <- mapMi (renderLayer st) 0 LAYERS ;;
  detail <- renderDetailPanel st ;;
  Ok (Elem "div" None []
        [ ("minHeight", SStr "100vh"); ("background", SStr "#080c10")
        ; ("fontFamily", SStr "'Courier New', monospace")
        ; ("color", SStr "#c8d6e5"); ("padding", SStr "40px 32px")
        ; ("position", SStr "relative"); ("overflow", SStr "hidden") ]
        [ Elem "div" None []
            [ ("position", SStr "fixed"); ("inset", num 0); ("zIndex", num 0)
            ; ("backgroundImage",
               SStr (nl ++
                 "          linear-gradient(rgba(0,255,157,0.03) 1px, transparent 1px)," ++ nl ++
                 "          linear-gradient(90deg, rgba(0,255,157,0.03) 1px, transparent 1px)" ++ nl ++
                 "        "))
            ; ("backgroundSize", SStr "40px 40px")
            ; ("pointerEvents", SStr "none") ] []
        ; Elem "div" None []
            [ ("position", SStr "fixed"); ("inset", num 0); ("zIndex", num 0)
            ; ("background", SStr "repeating-linear-gradient(0deg, transparent, transparent 2px, rgba(0,0,0,0.08) 2px, rgba(0,0,0,0.08) 4px)")
            ; ("pointerEvents", SStr "none") ] []
        ; Elem "div" None []
            [ ("position", SStr "relative"); ("zIndex", num 1)
            ; ("maxWidth", num 900); ("margin", SStr "0 auto") ]
            [ renderHeader
            ; Elem "div" None []
                [ ("display", SStr "flex"); ("flexDirection", SStr "column")
                ; ("gap", num 6) ]
                layers
            ; detail
            ; renderLegend ] ]).

(** ** Observing a rendered tree *)

Definition children_of (v : VNode) : list VNode :=
  match v with
  | Elem _ _ _ _ cs | Fragment cs => cs
  | _ => []
  end.

Definition key_of (v : VNode) : option string :=
  match v with
  | Elem _ k _ _ _ => k
  | _ => None
  end.

Definition style_of (v : VNode) : Style :=
  match v with
  | Elem _ _ _ sty _ => sty
  | _ => []
  end.

Definition handlers_of (v : VNode) : list (EventName * Action) :=
  match v with
  | Elem _ _ hs _ _ => hs
  | _ => []
  end.

Definition EventName_eqb (a b : EventName) : bool :=
  match a, b with
  | onClick, onClick | onMouseEnter, onMouseEnter | onMouseLeave, onMouseLeave => true
  | _, _ => false
  end.

Definition handler_of (ev : EventName) (v : VNode) : option Action :=
  option_map snd (find (fun h => EventName_eqb (fst h) ev) (handlers_of v)).

(** The subtree reached by following child indices from the root. *)
Fixpoint at_path (path : list nat) (v : VNode) : option VNode :=
  match path with
  | [] => Some v
  | i :: rest =>
      match nth_error (children_of v) i with
      | Some c => at_path rest c
      | None => None
      end
  end.

(** The texts a tree displays, in document order; a number is displayed in
    decimal, [false] is not displayed. *)
Fixpoint texts (v : VNode) : list string :=
  let fix texts_list (vs : list VNode) : list string :=
    match vs with
    | [] => []
    | c :: rest => texts c ++ texts_list rest
    end in
  match v with
  | Elem _ _ _ _ cs | Fragment cs => texts_list cs
  | Text s => [s]
  | Num z => [NilZero.string_of_int (Z.to_int z)]
  | VFalse => []
  end.

(** The [<button>] elements of a tree, in document order. *)
Fixpoint buttons (v : VNode) : list VNode :=
  let fix buttons_list (vs : list VNode) : list VNode :=
    match vs with
    | [] => []
    | c :: rest => buttons c ++ buttons_list rest
    end in
  match v with
  | Elem tag _ _ _ cs =>
      (if String.eqb tag "button" then [v] else []) ++ buttons_list cs
  | Fragment cs => buttons_list cs
  | _ => []
  end.

Definition to_option {A : Type} (r : Result A) : option A :=
  match r with
  | Ok a => Some a
  | TypeError => None
  end.

(** The places of the page: the column of layer rows is the second child of
    the third child of the root, the detail panel the child after it. *)
Definition layerRows (page : VNode) : list VNode :=
  match at_path [2; 1]%nat page with
  | Some col => children_of col
  | None => []
  end.

Definition detailPanel (st : State) : option VNode :=
  match ArchDiagram st with
  | Ok page => at_path [2; 2]%nat page
  | TypeError => None
  end.

(** The box of a layer row (the element carrying the hover handlers) and
    what follows it in the row. *)
Definition layerBox (row : VNode) : option VNode := nth_error (children_of row) 0.

Definition buttonOf (nodeId : string) (page : VNode) : option VNode :=
  find (fun b => match key_of b with
                 | Some k => String.eqb k nodeId
                 | None => false
                 end) (buttons page).

Definition rowOf (layerId : string) (page : VNode) : option VNode :=
  find (fun r => match key_of r with
                 | Some k => String.eqb k layerId
                 | None => false
                 end) (layerRows page).

(** The emphasized look of a node button of a layer of colour [c]:
    highlighted border, background and glow. *)
Definition nodeEmphasized (c : string) (b : VNode) : Prop :=
  get_prop (style_of b) "border" = Some (SStr ("1px solid " ++ c)) /\
  get_prop (style_of b) "background" = Some (SStr (c ++ "15")) /\
  get_prop (style_of b) "boxShadow" = Some (SStr ("0 0 20px " ++ c ++ "20")).

(** The emphasized look of a layer box of colour [c]. *)
Definition layerEmphasized (c : string) (box : VNode) : Prop :=
  get_prop (style_of box) "border" = Some (SStr ("1px solid " ++ c)) /\
  get_prop (style_of box) "background" = Some (SStr (c ++ "08")).

(** A lookup that follows the specification's words: the layers are visited
    in declaration order, the nodes of a layer in declaration order, and the
    first node with the wanted id is returned. *)
Fixpoint firstWithId (wanted : string) (ns : list Node.t) : option Node.t :=
  match ns with
  | [] => None
  | n :: rest => if String.eqb wanted (Node.id n) then Some n else firstWithId wanted rest
  end.

Fixpoint scanLayers (wanted : string) (ls : list Layer.t) : option Node.t :=
  match ls with
  | [] => None
  | l :: rest =>
      match firstWithId wanted (Layer.nodes l) with
      | Some n => Some n
      | None => scanLayers wanted rest
      end
  end.

Definition lookupActiveNode_spec (selectedNodeId : option string) : option Node.t :=
  match selectedNodeId with
  | None => None
  | Some wanted => scanLayers wanted LAYERS
  end.

(** Firing the handler the rendered tree holds: a click on the button keyed
    [nodeId], the pointer entering or leaving the box of the row keyed
    [layerId]. *)
Definition clickButton (nodeId : string) (st : State) : option State :=
  match ArchDiagram st with
  | Ok page =>
      match buttonOf nodeId page with
      | Some b => option_map (fun a => dispatch a st) (handler_of onClick b)
      | None => None
      end
  | TypeError => None
  end.

Definition pointerOnLayer (ev : EventName) (layerId : string) (st : State)
  : option State :=
  match ArchDiagram st with
  | Ok page =>
      match rowOf layerId page with
      | Some row =>
          match layerBox row with
          | Some box => option_map (fun a => dispatch a st) (handler_of ev box)
          | None => None
          end
      | None => None
      end
  | TypeError => None
  end.

(** ** Traces, well-formed states and further observations *)

(** The state after a sequence of user events, oldest first. *)
Definition run (es : list Event) (st : State) : State :=
  fold_left (fun s e => step e s) es st.

Definition isClick (e : Event) : bool :=
  match e with
  | Click _ => true
  | _ => false
  end.

(** What a pointer event writes into [hoveredLayer]; a click writes
    nothing there. *)
Definition hoverTarget (e : Event) : option (option string) :=
  match e with
  | MouseEnter l => Some (Some l)
  | MouseLeave _ => Some None
  | Click _ => None
  end.

(** The value written by the most recent pointer event of a trace. *)
Fixpoint lastHover (es : list Event) : option (option string) :=
  match es with
  | [] => None
  | e :: rest =>
      match lastHover rest with
      | Some v => Some v
      | None => hoverTarget e
      end
  end.

(** The states whose two cells hold nothing or an id of the tables. *)
Definition wellFormed (st : State) : Prop :=
  (active st = None \/
   exists n, In n allNodes /\ active st = Some (Node.id n)) /\
  (hoveredLayer st = None \/
   exists l, In l LAYERS /\ hoveredLayer st = Some (Layer.id l)).

(** All the handlers a tree holds, in document order. *)
Fixpoint handlersIn (v : VNode) : list (EventName * Action) :=
  let fix handlersIn_list (vs : list VNode) : list (EventName * Action) :=
    match vs with
    | [] => []
    | c :: rest => handlersIn c ++ handlersIn_list rest
    end in
  match v with
  | Elem _ _ hs _ cs => hs ++ handlersIn_list cs
  | Fragment cs => handlersIn_list cs
  | _ => []
  end.

(** The names [Object.prototype] defines: [obj[key]] finds them on every
    object literal although they are not properties of its own, so
    [get_prop] describes [LANG_COLORS[key]] for the other keys only. *)
Definition inheritedKeys : list string :=
  [ "constructor"; "hasOwnProperty"; "isPrototypeOf"; "propertyIsEnumerable"
  ; "toLocaleString"; "toString"; "valueOf"; "__proto__"
  ; "__defineGetter__"; "__defineSetter__"; "__lookupGetter__"
  ; "__lookupSetter__" ].

(** The language badge of a node button: its second child. *)
Definition badgeOf (button : VNode) : option VNode :=
  nth_error (children_of button) 1.

(** The language badge of the detail panel, when a node is shown. *)
Definition panelBadge (panel : VNode) : option VNode :=
  at_path [0; 0; 1]%nat panel.

(** The legend of the page: the child after the detail panel. *)
Definition legendOf (page : VNode) : option VNode := at_path [2; 3]%nat page.

(** The grid of node buttons of a layer row. *)
Definition gridOf (row : VNode) : option VNode := at_path [0; 1]%nat row.

(** The box of a layer row as the hover state shapes it: its style and its
    handlers. *)
Definition boxLook (row : VNode) : option (Style * list (EventName * Action)) :=
  option_map (fun box => (style_of box, handlers_of box)) (layerBox row).



(** The keys of the children of the grid of a layer row. *)
Definition gridKeys (row : VNode) : option (list (option string)) :=
  option_map (fun grid => map key_of (children_of grid)) (gridOf row).

(** A number as React displays it. *)
Definition decimal (z : Z) : string := NilZero.string_of_int (Z.to_int z).

(** ** Basic facts *)

Lemma strict_eq_true (x : option string) (id : string) :
  strict_eq x id = true <-> x = Some id.
Proof.
  destruct x as [y|]; simpl.
  - rewrite String.eqb_eq. split; congruence.
  - split; discriminate.
Qed.

Lemma strict_eq_false (x : option string) (id : string) :
  strict_eq x id = false <-> x <> Some id.
Proof.
  rewrite <- strict_eq_true. destruct (strict_eq x id); split; congruence.
Qed.

Lemma strict_eq_same (id : string) : strict_eq (Some id) id = true.
Proof. apply strict_eq_true. reflexivity. Qed.

Lemma active_selectNode (n : string) (st : State) :
  active (selectNode n st) = if strict_eq (active st) n then None else Some n.
Proof. reflexivity. Qed.

Lemma hoveredLayer_selectNode (n : string) (st : State) :
  hoveredLayer (selectNode n st) = hoveredLayer st.
Proof. reflexivity. Qed.

Lemma active_hoverLayer (l : option string) (st : State) :
  active (hoverLayer l st) = active st.
Proof. destruct l; reflexivity. Qed.

Lemma hoveredLayer_hoverLayer (l : option string) (st : State) :
  hoveredLayer (hoverLayer l st) = l.
Proof. destruct l; reflexivity. Qed.

(** ** The static tables *)

Lemma allNodes_ids :
  map Node.id allNodes =
  [ "syslog"; "cloudtrail"; "webhook"; "goagent"; "queue"; "parser"
  ; "normalizer"; "registry"; "filesink"; "monitor" ].
Proof. reflexivity. Qed.

Lemma NoDup_node_ids : NoDup (map Node.id allNodes).
Proof.
  rewrite allNodes_ids.
  repeat (constructor; [ simpl; intuition discriminate | ]).
  constructor.
Qed.

Lemma LANG_COLORS_covers (n : Node.t) :
  In n allNodes -> exists c, get_prop LANG_COLORS (Node.lang n) = Some c.
Proof.
  intros H. unfold allNodes in H. simpl in H.
  repeat (destruct H as [H|H]; [ subst n; eexists; reflexivity | ]).
  contradiction.
Qed.

(** ** Lookup of the active node *)

Section Lookup.

Variable wanted : string.

Lemma find_firstWithId (ns : list Node.t) :
  find (fun n => strict_eq (Some wanted) (Node.id n)) ns = firstWithId wanted ns.
Proof.
  induction ns as [|n ns IH]; simpl; [ reflexivity | ].
  destruct (String.eqb wanted (Node.id n)); [ reflexivity | exact IH ].
Qed.

Lemma firstWithId_app (xs ys : list Node.t) :
  firstWithId wanted (xs ++ ys) =
  match firstWithId wanted xs with
  | Some n => Some n
  | None => firstWithId wanted ys
  end.
Proof.
  induction xs as [|x xs IH]; simpl; [ reflexivity | ].
  destruct (String.eqb wanted (Node.id x)); [ reflexivity | exact IH ].
Qed.

Lemma firstWithId_flat_map (ls : list Layer.t) :
  firstWithId wanted (flat_map Layer.nodes ls) = scanLayers wanted ls.
Proof.
  induction ls as [|l ls IH]; simpl; [ reflexivity | ].
  rewrite firstWithId_app, IH. reflexivity.
Qed.

(** [firstWithId] returns the first node with the wanted id: it splits the
    sequence into nodes with another id, the result, and a rest. *)
Lemma firstWithId_Some (ns : list Node.t) (n : Node.t) :
  firstWithId wanted ns = Some n <->
  exists before after,
    ns = before ++ n :: after /\ Node.id n = wanted /\
    Forall (fun m => Node.id m <> wanted) before.
Proof.
  induction ns as [|x ns IH]; simpl.
  - split; [ discriminate | ].
    intros (before & after & H & _). destruct before; discriminate.
  - destruct (String.eqb_spec wanted (Node.id x)) as [E|E].
    + split.
      * intros [= <-]. exists [], ns. repeat split; auto.
      * intros (before & after & H & Hid & Hbefore).
        destruct before as [|b before]; simpl in H; injection H as <- _; [ reflexivity | ].
        inversion Hbefore; subst. congruence.
    + rewrite IH. split.
      * intros (before & after & -> & Hid & Hbefore).
        exists (x :: before), after. repeat split; auto.
      * intros (before & after & H & Hid & Hbefore).
        destruct before as [|b before]; simpl in H; injection H as <- H.
        -- congruence.
        -- inversion Hbefore; subst. exists before, after. repeat split; auto.
Qed.

Lemma firstWithId_None (ns : list Node.t) :
  firstWithId wanted ns = None <-> Forall (fun m => Node.id m <> wanted) ns.
Proof.
  induction ns as [|x ns IH]; simpl.
  - split; auto.
  - destruct (String.eqb_spec wanted (Node.id x)) as [E|E].
    + split; [ discriminate | ]. intros H. inversion H; subst. congruence.
    + rewrite IH. split.
      * intros H. constructor; auto.
      * intros H. inversion H; assumption.
Qed.

End Lookup.

Lemma activeNode_firstWithId (st : State) :
  activeNode st =
  match active st with
  | Some wanted => firstWithId wanted allNodes
  | None => None
  end.
Proof.
  unfold activeNode. destruct (active st) as [w|].
  - apply find_firstWithId.
  - induction allNodes as [|n ns IH]; simpl; auto.
Qed.

(** With unique ids, the node found for the id of a node of the table is
    that node. *)
Lemma firstWithId_unique (ns : list Node.t) (n : Node.t) :
  NoDup (map Node.id ns) -> In n ns -> firstWithId (Node.id n) ns = Some n.
Proof.
  induction ns as [|x ns IH]; simpl; intros Hnd Hin; [ contradiction | ].
  inversion Hnd as [|? ? Hx Hnd']; subst.
  destruct Hin as [->|Hin].
  - rewrite String.eqb_refl. reflexivity.
  - destruct (String.eqb_spec (Node.id n) (Node.id x)) as [E|E].
    + exfalso. apply Hx. rewrite <- E. apply in_map. exact Hin.
    + apply IH; assumption.
Qed.

Lemma activeNode_of_node (st : State) (n : Node.t) :
  In n allNodes -> active st = Some (Node.id n) -> activeNode st = Some n.
Proof.
  intros Hin Hact. rewrite activeNode_firstWithId, Hact.
  apply firstWithId_unique; [ exact NoDup_node_ids | exact Hin ].
Qed.

(** ** Exclusive selection *)

Lemma filter_nothing {A : Type} (p : A -> bool) (xs : list A) :
  (forall x, In x xs -> p x = false) -> filter p xs = [].
Proof.
  induction xs as [|x xs IH]; simpl; intros H; [ reflexivity | ].
  rewrite (H x) by (left; reflexivity). apply IH. intros y Hy. apply H. right. exact Hy.
Qed.

Lemma filter_selected_at_most_one (x : option string) (ns : list Node.t) :
  NoDup (map Node.id ns) ->
  (length (filter (fun n => strict_eq x (Node.id n)) ns) <= 1)%nat.
Proof.
  induction ns as [|n ns IH]; simpl; intros Hnd; [ lia | ].
  inversion Hnd as [|? ? Hn Hnd']; subst.
  destruct (strict_eq x (Node.id n)) eqn:E; [ | auto ].
  apply strict_eq_true in E. simpl.
  replace (filter (fun m => strict_eq x (Node.id m)) ns) with (@nil Node.t); [ simpl; lia | ].
  symmetry. apply filter_nothing. intros m Hm.
  destruct (strict_eq x (Node.id m)) eqn:Em; [ | reflexivity ].
  apply strict_eq_true in Em. exfalso. apply Hn.
  assert (Node.id n = Node.id m) as -> by congruence.
  apply in_map. exact Hm.
Qed.

Lemma selectedNodes_at_most_one (st : State) :
  (length (selectedNodes st) <= 1)%nat.
Proof. apply filter_selected_at_most_one. exact NoDup_node_ids. Qed.

(** In a reachable state the selection is empty or the id of a node of the
    table. *)
Lemma reachable_active (st : State) :
  reachable st -> active st = None \/ In st.(active) (map Some (map Node.id allNodes)).
Proof.
  induction 1 as [|e st Hr IH He]; [ left; reflexivity | ].
  destruct e as [n|l|l]; cbn [step rendered] in *.
  - rewrite active_selectNode. destruct (strict_eq (active st) n); [ left; reflexivity | ].
    right. apply in_map. exact He.
  - rewrite active_hoverLayer. exact IH.
  - rewrite active_hoverLayer. exact IH.
Qed.


Lemma NoDup_map_eq {A B : Type} (f : A -> B) (xs : list A) (x y : A) :
  NoDup (map f xs) -> In x xs -> In y xs -> f x = f y -> x = y.
Proof.
  induction xs as [|z xs IH]; simpl; intros Hnd Hx Hy E; [ contradiction | ].
  inversion Hnd as [|? ? Hz Hnd']; subst.
  destruct Hx as [->|Hx], Hy as [->|Hy].
  - reflexivity.
  - exfalso. apply Hz. rewrite E. apply in_map. exact Hy.
  - exfalso. apply Hz. rewrite <- E. apply in_map. exact Hx.
  - apply IH; assumption.
Qed.

(** ** Rendering never throws *)

Lemma renderDetailPanel_total (st : State) :
  exists d, renderDetailPanel st = Ok d /\ buttons d = [].
Proof.
  unfold renderDetailPanel.
  destruct (activeNode st) as [n|] eqn:E.
  - apply find_some in E. destruct E as [Hin _].
    unfold allNodes in Hin. simpl in Hin.
    repeat (destruct Hin as [Hin|Hin]; [ subst n; eexists; split; reflexivity | ]).
    contradiction.
  - eexists. split; reflexivity.
Qed.

Lemma renderDetailPanel_active (s1 s2 : State) :
  active s1 = active s2 -> renderDetailPanel s1 = renderDetailPanel s2.
Proof.
  intros H. unfold renderDetailPanel, activeNode. rewrite H. reflexivity.
Qed.

Lemma renderLayers_total (st : State) :
  exists rows, mapMi (renderLayer st) 0 LAYERS = Ok rows.
Proof. eexists. lazy -[strict_eq]. reflexivity. Qed.

Lemma ArchDiagram_total (st : State) : exists page, ArchDiagram st = Ok page.
Proof.
  unfold ArchDiagram.
  destruct (renderLayers_total st) as [rows ->].
  destruct (renderDetailPanel_total st) as (d & -> & _).
  eexists. reflexivity.
Qed.

(** The detail panel of the page is what [renderDetailPanel] returned. *)
Lemma detailPanel_renderDetailPanel (st : State) :
  detailPanel st = to_option (renderDetailPanel st).
Proof.
  unfold detailPanel, ArchDiagram.
  destruct (renderLayers_total st) as [rows ->].
  destruct (renderDetailPanel st) as [d|]; reflexivity.
Qed.

Lemma detailPanel_texts_of_activeNode (st : State) (n : Node.t) :
  In n allNodes -> activeNode st = Some n ->
  option_map texts (detailPanel st) =
  Some [ Node.label n; toUpperCase (Node.lang n); Node.desc n ].
Proof.
  intros Hin E. rewrite detailPanel_renderDetailPanel.
  unfold renderDetailPanel. rewrite E.
  destruct (LANG_COLORS_covers n Hin) as [c ->]. reflexivity.
Qed.

Lemma detailPanel_texts_no_activeNode (st : State) :
  activeNode st = None ->
  option_map texts (detailPanel st) = Some [ "▸ SELECT A NODE TO INSPECT" ].
Proof.
  intros E. rewrite detailPanel_renderDetailPanel.
  unfold renderDetailPanel. rewrite E. reflexivity.
Qed.

(** ** The rendered handlers and looks *)

(** Splits on the comparison of the state cell [a] with an id. *)
Ltac split_on_strict_eq a E :=
  match goal with
  | |- context [strict_eq a ?k] => destruct (strict_eq a k) eqn:E
  end.

(** Every node of the table has one button in the page; its click handler
    is [onClickNode] and it looks emphasized exactly when it is active. *)
Lemma rendered_buttons (st : State) :
  exists page, ArchDiagram st = Ok page /\
    Forall (fun l =>
      Forall (fun n =>
        exists b, buttonOf (Node.id n) page = Some b /\
                  handler_of onClick b = Some (onClickNode st (Node.id n)) /\
                  (nodeEmphasized (Layer.color l) b <-> active st = Some (Node.id n)))
        (Layer.nodes l)) LAYERS.
Proof.
  destruct (renderDetailPanel_total st) as (d & Hd & _).
  destruct st as [a h].
  eexists. split.
  { unfold ArchDiagram. rewrite Hd. lazy -[strict_eq]. reflexivity. }
  unfold LAYERS.
  repeat (apply Forall_cons || apply Forall_nil); cbn [Layer.nodes Layer.color Node.id].
  all: repeat (apply Forall_cons || apply Forall_nil).
  all: eexists; split; [ lazy -[strict_eq]; reflexivity | ].
  all: unfold nodeEmphasized, onClickNode; lazy -[strict_eq].
  all: split_on_strict_eq a E; (split; [ reflexivity | ]).
  all: try (apply strict_eq_true in E; split; [ intros _; exact E | intros _; repeat split ]).
  all: split;
    [ intros (_ & _ & H); discriminate H
    | intros H; apply strict_eq_true in H; congruence ].
Qed.

(** Every layer of the table has one row in the page; its box holds the two
    hover handlers and looks emphasized exactly when it is hovered. *)
Lemma rendered_rows (st : State) :
  exists page, ArchDiagram st = Ok page /\
    Forall (fun l =>
      exists row box,
        rowOf (Layer.id l) page = Some row /\ layerBox row = Some box /\
        handler_of onMouseEnter box = Some (onMouseEnterLayer (Layer.id l)) /\
        handler_of onMouseLeave box = Some onMouseLeaveLayer /\
        (layerEmphasized (Layer.color l) box <-> hoveredLayer st = Some (Layer.id l)))
      LAYERS.
Proof.
  destruct (renderDetailPanel_total st) as (d & Hd & _).
  destruct st as [a h].
  eexists. split.
  { unfold ArchDiagram. rewrite Hd. lazy -[strict_eq]. reflexivity. }
  unfold LAYERS.
  repeat (apply Forall_cons || apply Forall_nil); cbn [Layer.color Layer.id].
  all: do 2 eexists; split; [ lazy -[strict_eq]; reflexivity | ].
  all: split; [ lazy -[strict_eq]; reflexivity | ].
  all: unfold layerEmphasized, onMouseEnterLayer, onMouseLeaveLayer; lazy -[strict_eq].
  all: split_on_strict_eq h E; (split; [ reflexivity | split; [ reflexivity | ] ]).
  all: try (apply strict_eq_true in E; split; [ intros _; exact E | intros _; repeat split ]).
  all: split;
    [ intros (_ & H); discriminate H
    | intros H; apply strict_eq_true in H; congruence ].
Qed.

Lemma Forall_nodes_In (P : Layer.t -> Node.t -> Prop) :
  Forall (fun l => Forall (P l) (Layer.nodes l)) LAYERS ->
  forall id, In id (map Node.id allNodes) ->
  exists l n, In l LAYERS /\ In n (Layer.nodes l) /\ Node.id n = id /\ P l n.
Proof.
  intros H id Hin. apply in_map_iff in Hin. destruct Hin as (n & <- & Hin).
  unfold allNodes in Hin. apply in_flat_map in Hin. destruct Hin as (l & Hl & Hn).
  exists l, n. repeat split; auto.
  rewrite Forall_forall in H. specialize (H l Hl).
  rewrite Forall_forall in H. exact (H n Hn).
Qed.

(** Clicking the rendered button of a node is [selectNode]. *)
Lemma clickButton_selectNode (id : string) (st : State) :
  In id (map Node.id allNodes) -> clickButton id st = Some (selectNode id st).
Proof.
  intros Hin. destruct (rendered_buttons st) as (page & Hpage & Hall).
  destruct (Forall_nodes_In _ Hall id Hin) as (l & n & _ & _ & <- & b & Hb & Hclick & _).
  unfold clickButton. rewrite Hpage, Hb, Hclick. reflexivity.
Qed.

(** The pointer entering or leaving the rendered box of a layer is
    [hoverLayer]. *)
Lemma pointerOnLayer_hoverLayer (id : string) (st : State) :
  In id (map Layer.id LAYERS) ->
  pointerOnLayer onMouseEnter id st = Some (hoverLayer (Some id) st) /\
  pointerOnLayer onMouseLeave id st = Some (hoverLayer None st).
Proof.
  intros Hin. destruct (rendered_rows st) as (page & Hpage & Hall).
  apply in_map_iff in Hin. destruct Hin as (l & <- & Hl).
  rewrite Forall_forall in Hall.
  destruct (Hall l Hl) as (row & box & Hrow & Hbox & Henter & Hleave & _).
  unfold pointerOnLayer. rewrite Hpage, Hrow, Hbox, Henter, Hleave.
  split; reflexivity.
Qed.



(** ** Properties of the specification *)

(** C1 (as amended).  For every node id [n], [selectNode n] (the click
    handler of the rendered button of [n]) sets the selection to [n] when
    [n] is not the selected node and clears it when [n] is the selected
    node.  Two consecutive clicks on [n] leave the selection empty when [n]
    was not selected at the start, and leave [n] selected when it was. *)
Theorem selectNode_toggle (n : string) (st : State) :
  (In n (map Node.id allNodes) -> clickButton n st = Some (selectNode n st)) /\
  (active st <> Some n -> active (selectNode n st) = Some n) /\
  (active st = Some n -> active (selectNode n st) = None) /\
  (active st <> Some n -> active (selectNode n (selectNode n st)) = None) /\
  (active st = Some n -> active (selectNode n (selectNode n st)) = Some n).
Proof.
  split; [ apply clickButton_selectNode | ].
  rewrite !active_selectNode.
  destruct (strict_eq (active st) n) eqn:E.
  - apply strict_eq_true in E.
    repeat split; intros H; try congruence; simpl; reflexivity.
  - pose proof (proj1 (strict_eq_false _ _) E) as Hne.
    rewrite strict_eq_same.
    repeat split; intros H; congruence.
Qed.

Lemma selectNode_toggle_witness :
  clickButton "parser" initialState = Some (selectNode "parser" initialState) /\
  active (selectNode "parser" initialState) = Some "parser" /\
  active (selectNode "parser" (selectNode "parser" initialState)) = None /\
  active (selectNode "parser" (mkState (Some "parser") None)) = None /\
  active (selectNode "parser" (selectNode "parser" (mkState (Some "parser") None)))
    = Some "parser".
Proof.
  destruct (selectNode_toggle "parser" initialState) as (H0 & H1 & _ & H3 & _).
  destruct (selectNode_toggle "parser" (mkState (Some "parser") None))
    as (_ & _ & H2 & _ & H4).
  split; [ apply H0; simpl; tauto | ].
  split; [ apply H1; discriminate | ].
  split; [ apply H3; discriminate | ].
  split; [ apply H2; reflexivity | apply H4; reflexivity ].
Defined.

(** C1 (as stated) fails: started with "parser" selected, a state one click
    away from the initial one, two clicks on "parser" end with "parser"
    selected, not with the empty selection. *)
Lemma selectNode_twice_from_selected :
  reachable (selectNode "parser" initialState) /\
  active (selectNode "parser" (selectNode "parser" (selectNode "parser" initialState)))
    = Some "parser" /\
  ~ (forall (n : string) (st : State),
        active (selectNode n (selectNode n st)) = None).
Proof.
  split; [ | split ].
  - apply (reach_step (Click "parser")); [ constructor | simpl; tauto ].
  - reflexivity.
  - intros H.
    specialize (H "parser" (selectNode "parser" initialState)).
    discriminate H.
Qed.

(** C2.  For distinct node ids [n1] and [n2], [selectNode n1] followed by
    [selectNode n2] leaves [n2] selected and [n1] not selected, whatever the
    state before; and in every reachable state at most one node of the
    table is drawn as selected. *)
Theorem selection_exclusive :
  (forall (n1 n2 : string) (st : State),
      n1 <> n2 ->
      active (selectNode n2 (selectNode n1 st)) = Some n2 /\
      strict_eq (active (selectNode n2 (selectNode n1 st))) n1 = false) /\
  (forall st : State, reachable st -> (length (selectedNodes st) <= 1)%nat).
Proof.
  split.
  - intros n1 n2 st Hne.
    assert (H : active (selectNode n2 (selectNode n1 st)) = Some n2).
    { rewrite !active_selectNode.
      destruct (strict_eq (active st) n1) eqn:E1; [ reflexivity | ].
      destruct (strict_eq (Some n1) n2) eqn:E2; [ | reflexivity ].
      apply strict_eq_true in E2. congruence. }
    split; [ exact H | ].
    rewrite H. apply strict_eq_false. congruence.
  - intros st _. apply selectedNodes_at_most_one.
Qed.

Lemma selection_exclusive_witness :
  active (selectNode "queue" (selectNode "parser" initialState)) = Some "queue" /\
  strict_eq (active (selectNode "queue" (selectNode "parser" initialState))) "parser"
    = false /\
  (length (selectedNodes (selectNode "queue" (selectNode "parser" initialState))) <= 1)%nat.
Proof.
  destruct selection_exclusive as [H1 H2].
  assert (Hne : "parser" <> "queue") by discriminate.
  destruct (H1 "parser" "queue" initialState Hne) as [Ha Hb].
  split; [ exact Ha | ]. split; [ exact Hb | ].
  apply H2.
  apply (reach_step (Click "queue")); [ | simpl; tauto ].
  apply (reach_step (Click "parser")); [ | simpl; tauto ].
  apply reach_init.
Defined.

(** C3.  The detail panel of the page depends on the state through the
    selection only.  With no selection it displays the prompt; with a node
    of the table selected it displays that node's label, its language tag in
    upper case and its description, and no other text. *)
Theorem detail_panel_pure_function :
  (forall s1 s2 : State, active s1 = active s2 -> detailPanel s1 = detailPanel s2) /\
  (forall st : State, exists d, detailPanel st = Some d) /\
  (forall st : State,
      active st = None ->
      option_map texts (detailPanel st) = Some [ "▸ SELECT A NODE TO INSPECT" ]) /\
  (forall (st : State) (n : Node.t),
      In n allNodes -> active st = Some (Node.id n) ->
      option_map texts (detailPanel st) =
      Some [ Node.label n; toUpperCase (Node.lang n); Node.desc n ]).
Proof.
  repeat split.
  - intros s1 s2 H. rewrite !detailPanel_renderDetailPanel.
    f_equal. apply renderDetailPanel_active. exact H.
  - intros st. rewrite detailPanel_renderDetailPanel.
    destruct (renderDetailPanel_total st) as (d & -> & _). exists d. reflexivity.
  - intros st H. apply detailPanel_texts_no_activeNode.
    rewrite activeNode_firstWithId, H. reflexivity.
  - intros st n Hin H. apply detailPanel_texts_of_activeNode; [ exact Hin | ].
    apply activeNode_of_node; assumption.
Qed.

Lemma detail_panel_pure_function_witness :
  detailPanel (mkState (Some "queue") None) =
    detailPanel (mkState (Some "queue") (Some "sink")) /\
  option_map texts (detailPanel initialState) = Some [ "▸ SELECT A NODE TO INSPECT" ] /\
  option_map texts (detailPanel (mkState (Some "goagent") (Some "sink"))) =
    Some [ "Go Collector Agent"; "GO"
         ; "Deployed on customer infra. Goroutines + channels for high-throughput local collection, gRPC egress." ].
Proof.
  destruct detail_panel_pure_function as (H1 & _ & H2 & H3).
  split; [ apply H1; reflexivity | ].
  split; [ apply H2; reflexivity | ].
  apply (H3 (mkState (Some "goagent") (Some "sink"))
            (Node.mk "goagent" "Go Collector Agent" "Go"
               "Deployed on customer infra. Goroutines + channels for high-throughput local collection, gRPC egress.")).
  - simpl. tauto.
  - reflexivity.
Defined.

(** C4.  [activeNode] is the lookup the specification describes: it visits
    the layers in declaration order and the nodes of a layer in declaration
    order, and returns the first node whose id is the selected one.  Its
    result is a node [n] exactly when the flattened node sequence splits
    into nodes with another id, then [n] with the selected id, then a rest;
    it is none exactly when nothing is selected or no node has the selected
    id. *)
Theorem activeNode_scans_in_order (st : State) :
  activeNode st = lookupActiveNode_spec (active st) /\
  allNodes = concat (map Layer.nodes LAYERS) /\
  (forall n : Node.t,
      activeNode st = Some n <->
      exists wanted before after,
        active st = Some wanted /\ allNodes = before ++ n :: after /\
        Node.id n = wanted /\ Forall (fun m => Node.id m <> wanted) before) /\
  (activeNode st = None <->
   active st = None \/
   exists wanted, active st = Some wanted /\
                  Forall (fun m => Node.id m <> wanted) allNodes).
Proof.
  rewrite activeNode_firstWithId. unfold lookupActiveNode_spec.
  split; [ | split; [ apply flat_map_concat_map | split ] ].
  - destruct (active st) as [w|]; [ | reflexivity ].
    apply firstWithId_flat_map.
  - intros n. destruct (active st) as [w|].
    + rewrite firstWithId_Some. split.
      * intros (before & after & H). exists w, before, after. tauto.
      * intros (w' & before & after & [= <-] & H). exists before, after. exact H.
    + split; [ discriminate | ]. intros (w & _ & _ & H & _). discriminate H.
  - destruct (active st) as [w|].
    + rewrite firstWithId_None. split.
      * intros H. right. exists w. tauto.
      * intros [H | (w' & [= <-] & H)]; [ discriminate H | exact H ].
    + split; [ left | ]; reflexivity.
Qed.

(** C5.  [hoverLayer] writes its argument into [hoveredLayer] whatever the
    cell held before: the pointer entering the box of a layer sets it to
    that layer's id (also when that layer was hovered already), the pointer
    leaving the box of any layer sets it to none.  The handlers of the
    rendered layer boxes are these two operations. *)
Theorem hoverLayer_sets_directly (l : string) (st : State) :
  hoveredLayer (hoverLayer (Some l) st) = Some l /\
  hoveredLayer (hoverLayer None st) = None /\
  hoveredLayer (step (MouseEnter l) st) = Some l /\
  hoveredLayer (step (MouseLeave l) st) = None /\
  hoveredLayer (hoverLayer (Some l) (hoverLayer (Some l) st)) = Some l /\
  (In l (map Layer.id LAYERS) ->
   pointerOnLayer onMouseEnter l st = Some (hoverLayer (Some l) st) /\
   pointerOnLayer onMouseLeave l st = Some (hoverLayer None st)).
Proof.
  repeat (split; [ reflexivity | ]).
  apply pointerOnLayer_hoverLayer.
Qed.

Lemma hoverLayer_sets_directly_witness :
  hoveredLayer (hoverLayer (Some "ingest") (mkState None (Some "sink"))) = Some "ingest" /\
  hoveredLayer (hoverLayer None (mkState None (Some "sink"))) = None /\
  pointerOnLayer onMouseEnter "ingest" (mkState None (Some "sink"))
    = Some (mkState None (Some "ingest")) /\
  pointerOnLayer onMouseLeave "ingest" (mkState None (Some "sink"))
    = Some (mkState None None).
Proof.
  destruct (hoverLayer_sets_directly "ingest" (mkState None (Some "sink")))
    as (H1 & H2 & _ & _ & _ & H3).
  split; [ exact H1 | ]. split; [ exact H2 | ].
  apply H3. simpl. tauto.
Defined.

(** C6.  Every node of the static layer table has a language tag with an
    entry in [LANG_COLORS]; so the colour lookups of the node badges and of
    the detail-panel badge all find a colour triple, and rendering returns a
    page in every state. *)
Theorem language_styles_defined :
  Forall (fun n => exists c, get_prop LANG_COLORS (Node.lang n) = Some c) allNodes /\
  (forall st : State,
      Forall (fun l =>
        Forall (fun n => exists b, renderNode st l n = Ok b) (Layer.nodes l)) LAYERS) /\
  (forall st : State, exists d, renderDetailPanel st = Ok d) /\
  (forall st : State, exists page, ArchDiagram st = Ok page).
Proof.
  split; [ | split; [ | split ] ].
  - apply Forall_forall. exact LANG_COLORS_covers.
  - intros st. apply Forall_forall. intros l Hl.
    apply Forall_forall. intros n Hn.
    assert (Hin : In n allNodes).
    { unfold allNodes. apply in_flat_map. exists l. split; assumption. }
    destruct (LANG_COLORS_covers n Hin) as [c Hc].
    unfold renderNode. rewrite Hc. eexists. reflexivity.
  - intros st. destruct (renderDetailPanel_total st) as (d & Hd & _).
    exists d. exact Hd.
  - exact ArchDiagram_total.
Qed.

(** C7.  Node ids are unique across all layers: the ids of the flattened
    node sequence have no duplicate, so two nodes of the table with the same
    id are the same node and the lookup of a node's id finds that node. *)
Theorem node_ids_globally_unique :
  NoDup (map Node.id (flat_map Layer.nodes LAYERS)) /\
  (forall n m : Node.t,
      In n allNodes -> In m allNodes -> Node.id n = Node.id m -> n = m) /\
  (forall (st : State) (n : Node.t),
      In n allNodes -> active st = Some (Node.id n) -> activeNode st = Some n).
Proof.
  split; [ exact NoDup_node_ids | split ].
  - intros n m. apply NoDup_map_eq. exact NoDup_node_ids.
  - intros st n. apply activeNode_of_node.
Qed.

Lemma node_ids_globally_unique_witness :
  activeNode (mkState (Some "queue") None) =
  Some (Node.mk "queue" "Async Event Queue" "Python"
          "asyncio.Queue (maxsize=10k). Backpressure-aware. Buffers bursts between sources and consumers.").
Proof.
  destruct node_ids_globally_unique as (_ & _ & H).
  apply (H (mkState (Some "queue") None)
           (Node.mk "queue" "Async Event Queue" "Python"
              "asyncio.Queue (maxsize=10k). Backpressure-aware. Buffers bursts between sources and consumers.")).
  - simpl. tauto.
  - reflexivity.
Defined.

(** C8.  After [selectNode "parser"] from the initial state, the detail
    panel displays the label "Rust Log Parser", the badge "RUST" and the
    description of the parser node, and the button of "parser" has the
    emphasized look in the colour of its layer. *)
Theorem click_parser_scenario :
  let st := selectNode "parser" initialState in
  active st = Some "parser" /\
  option_map texts (detailPanel st) =
    Some [ "Rust Log Parser"; "RUST"
         ; "Parses CEF, LEEF, JSON, syslog at wire rate. Memory-safe handling of untrusted input. Emits structured records." ] /\
  exists page b,
    ArchDiagram st = Ok page /\ buttonOf "parser" page = Some b /\
    nodeEmphasized "#00cfff" b /\
    get_prop (style_of b) "transform" = Some (SStr "translateY(-1px)") /\
    selectedNodes st =
      [ Node.mk "parser" "Rust Log Parser" "Rust"
          "Parses CEF, LEEF, JSON, syslog at wire rate. Memory-safe handling of untrusted input. Emits structured records." ].
Proof.
  cbv zeta. split; [ reflexivity | ]. split; [ vm_compute; reflexivity | ].
  do 2 eexists.
  split; [ vm_compute; reflexivity | ].
  split; [ vm_compute; reflexivity | ].
  split; [ repeat split | split; reflexivity ].
Qed.


(** C10.  The two state cells are independent: [selectNode] leaves
    [hoveredLayer] as it was, and [hoverLayer], with a layer id or with
    none, leaves [active] as it was. *)
Theorem state_cells_independent (st : State) :
  (forall id : string, hoveredLayer (selectNode id st) = hoveredLayer st) /\
  (forall l : option string, active (hoverLayer l st) = active st) /\
  (forall e : Event,
      match e with
      | Click _ => hoveredLayer (step e st) = hoveredLayer st
      | MouseEnter _ | MouseLeave _ => active (step e st) = active st
      end).
Proof.
  split; [ | split ].
  - intros id. apply hoveredLayer_selectNode.
  - intros l. apply active_hoverLayer.
  - intros [n|l|l]; reflexivity.
Qed.

(** ** Further properties of the state and its events *)

Lemma run_cons (e : Event) (es : list Event) (st : State) :
  run (e :: es) st = run es (step e st).
Proof. reflexivity. Qed.

Lemma hoveredLayer_step (e : Event) (st : State) :
  hoveredLayer (step e st) =
  match hoverTarget e with
  | Some v => v
  | None => hoveredLayer st
  end.
Proof. destruct e; reflexivity. Qed.

Lemma active_step_pointer (e : Event) (st : State) :
  isClick e = false -> active (step e st) = active st.
Proof. destruct e; [ discriminate | reflexivity | reflexivity ]. Qed.

Lemma active_step_congr (e : Event) (s1 s2 : State) :
  active s1 = active s2 -> active (step e s1) = active (step e s2).
Proof.
  intros H. destruct e as [n|l|l]; simpl.
  - rewrite H. reflexivity.
  - exact H.
  - exact H.
Qed.

Lemma active_run_congr (es : list Event) (s1 s2 : State) :
  active s1 = active s2 -> active (run es s1) = active (run es s2).
Proof.
  revert s1 s2. induction es as [|e es IH]; intros s1 s2 H; [ exact H | ].
  rewrite !run_cons. apply IH. apply active_step_congr. exact H.
Qed.

Lemma In_node_ids (n : Node.t) : In n allNodes -> In (Node.id n) (map Node.id allNodes).
Proof. apply in_map. Qed.

Lemma In_layer_ids (l : Layer.t) : In l LAYERS -> In (Layer.id l) (map Layer.id LAYERS).
Proof. apply in_map. Qed.

Lemma wellFormed_step (e : Event) (st : State) :
  rendered e -> wellFormed st -> wellFormed (step e st).
Proof.
  intros He [Ha Hh]. destruct e as [id|id|id]; cbn [step rendered] in *.
  - split; [ | rewrite hoveredLayer_selectNode; exact Hh ].
    rewrite active_selectNode. destruct (strict_eq (active st) id); [ left; reflexivity | ].
    right. apply in_map_iff in He. destruct He as (n & <- & Hn). exists n. auto.
  - split; [ rewrite active_hoverLayer; exact Ha | ].
    rewrite hoveredLayer_hoverLayer. right.
    apply in_map_iff in He. destruct He as (l & <- & Hl). exists l. auto.
  - split; [ rewrite active_hoverLayer; exact Ha | ].
    rewrite hoveredLayer_hoverLayer. left. reflexivity.
Qed.

(** With unique ids, the nodes passing the selection test are the node the
    lookup finds, if any. *)
Lemma filter_find_unique (x : option string) (ns : list Node.t) :
  NoDup (map Node.id ns) ->
  filter (fun n => strict_eq x (Node.id n)) ns =
  match find (fun n => strict_eq x (Node.id n)) ns with
  | Some n => [n]
  | None => []
  end.
Proof.
  induction ns as [|n ns IH]; simpl; intros Hnd; [ reflexivity | ].
  inversion Hnd as [|? ? Hn Hnd']; subst.
  destruct (strict_eq x (Node.id n)) eqn:E; [ | auto ].
  f_equal. apply filter_nothing. intros m Hm.
  destruct (strict_eq x (Node.id m)) eqn:Em; [ | reflexivity ].
  apply strict_eq_true in E. apply strict_eq_true in Em.
  exfalso. apply Hn. assert (Node.id n = Node.id m) as -> by congruence.
  apply in_map. exact Hm.
Qed.

Lemma selectNode_eq (n : string) (st : State) :
  selectNode n st =
  mkState (if strict_eq (active st) n then None else Some n) (hoveredLayer st).
Proof. reflexivity. Qed.

Lemma reachable_wellFormed (st : State) : reachable st -> wellFormed st.
Proof.
  induction 1 as [|e st Hr IH He].
  - split; left; reflexivity.
  - apply wellFormed_step; assumption.
Qed.

Lemma wellFormed_reachable (st : State) : wellFormed st -> reachable st.
Proof.
  destruct st as [a h]. intros [Ha Hh]. cbn [active hoveredLayer] in *.
  assert (R1 : reachable (mkState a None)).
  { destruct Ha as [->|(n & Hn & ->)]; [ apply reach_init | ].
    apply (reach_step (Click (Node.id n)) initialState);
      [ apply reach_init | apply In_node_ids; exact Hn ]. }
  destruct Hh as [->|(l & Hl & ->)]; [ exact R1 | ].
  apply (reach_step (MouseEnter (Layer.id l)) (mkState a None));
    [ exact R1 | apply In_layer_ids; exact Hl ].
Qed.

(** X1.  The reachable states are exactly the well-formed ones: [active] is
    none or the id of a node of the table, [hoveredLayer] is none or the id
    of a layer of the table, and every such combination can be reached by
    clicking and hovering. *)
Theorem reachable_iff_wellFormed (st : State) : reachable st <-> wellFormed st.
Proof. split; [ apply reachable_wellFormed | apply wellFormed_reachable ]. Qed.

(** X2.  In a reachable state the lookup never misses: [activeNode] is none
    only when nothing is selected, and when an id is selected it is the
    node of the table with that id.  So the detail panel displays the prompt
    exactly when nothing is selected. *)
Theorem reachable_lookup_never_misses (st : State) :
  reachable st ->
  (activeNode st = None <-> active st = None) /\
  (forall id, active st = Some id ->
     exists n, activeNode st = Some n /\ In n allNodes /\ Node.id n = id) /\
  (option_map texts (detailPanel st) = Some [ "▸ SELECT A NODE TO INSPECT" ]
   <-> active st = None).
Proof.
  intros Hr. apply reachable_wellFormed in Hr. destruct Hr as [Ha _].
  destruct Ha as [Ha|(n & Hn & Ha)].
  - assert (E : activeNode st = None) by (rewrite activeNode_firstWithId, Ha; reflexivity).
    split; [ tauto | ]. split; [ intros id H; congruence | ].
    split; [ intros _; exact Ha | intros _ ].
    apply detailPanel_texts_no_activeNode. exact E.
  - pose proof (activeNode_of_node st n Hn Ha) as E.
    split; [ split; congruence | ].
    split.
    + intros id H. exists n. repeat split; congruence.
    + rewrite (detailPanel_texts_of_activeNode st n Hn E).
      split; [ discriminate | congruence ].
Qed.

Lemma reachable_lookup_never_misses_witness :
  exists n, activeNode (selectNode "monitor" initialState) = Some n /\
            In n allNodes /\ Node.id n = "monitor".
Proof.
  assert (Hr : reachable (selectNode "monitor" initialState)).
  { apply (reach_step (Click "monitor")); [ apply reach_init | simpl; tauto ]. }
  destruct (reachable_lookup_never_misses _ Hr) as (_ & H & _).
  apply H. reflexivity.
Defined.

(** X3.  In every state the nodes drawn as selected are the node the lookup
    returns, if any: the selection test of the buttons and the lookup of the
    detail panel never disagree. *)
Theorem selectedNodes_is_activeNode (st : State) :
  selectedNodes st =
  match activeNode st with
  | Some n => [n]
  | None => []
  end.
Proof. apply filter_find_unique. exact NoDup_node_ids. Qed.

(** X4.  Clicking a node three times is clicking it once, and two clicks on
    a node give back the state they started from exactly when nothing or
    that node was selected. *)
Theorem selectNode_period (n : string) (st : State) :
  selectNode n (selectNode n (selectNode n st)) = selectNode n st /\
  (selectNode n (selectNode n st) = st <-> active st = None \/ active st = Some n).
Proof.
  destruct st as [a h]. rewrite !selectNode_eq. cbn [active hoveredLayer].
  destruct (strict_eq a n) eqn:E.
  - apply strict_eq_true in E. subst a.
    cbn [strict_eq]. rewrite String.eqb_refl.
    split; [ reflexivity | ]. split; auto.
  - rewrite strict_eq_same. cbn [strict_eq].
    split; [ reflexivity | ].
    apply strict_eq_false in E. split.
    + intros [= <-]. left. reflexivity.
    + intros [->| ->]; [ reflexivity | congruence ].
Qed.

(** X5.  After any sequence of events, [hoveredLayer] holds what the most
    recent pointer event wrote (the entered layer, or none after a leave),
    or its old value when the sequence has no pointer event; and [active]
    is what the clicks of the sequence alone would have produced. *)
Theorem run_tracks_last_hover (es : list Event) (st : State) :
  hoveredLayer (run es st) =
    match lastHover es with
    | Some v => v
    | None => hoveredLayer st
    end /\
  active (run es st) = active (run (filter isClick es) st).
Proof.
  revert st. induction es as [|e es IH]; intros st; [ split; reflexivity | ].
  rewrite run_cons. destruct (IH (step e st)) as [IHh IHa]. split.
  - rewrite IHh. cbn [lastHover]. destruct (lastHover es); [ reflexivity | ].
    apply hoveredLayer_step.
  - rewrite IHa. cbn [filter]. destruct (isClick e) eqn:E.
    + rewrite run_cons. reflexivity.
    + apply active_run_congr. apply active_step_pointer. exact E.
Qed.

(** ** Further properties of the rendered page *)

Lemma activeNode_cases (st : State) :
  activeNode st = None \/ exists n, In n allNodes /\ activeNode st = Some n.
Proof.
  destruct (activeNode st) as [n|] eqn:E; [ right | left; reflexivity ].
  exists n. split; [ | reflexivity ]. apply find_some in E. apply E.
Qed.

(** Proves a fact about the page of state [st] by evaluating the render in
    each case of the lookup: nothing found, or one of the nodes of the
    table. *)
Ltac page_by_cases st solve_page :=
  let a := fresh "a" in
  let h := fresh "h" in
  let n := fresh "n" in
  let Hin := fresh "Hin" in
  let E := fresh "E" in
  destruct st as [a h];
  destruct (activeNode_cases (mkState a h)) as [E|(n & Hin & E)];
  [ solve_page E
  | unfold allNodes in Hin; simpl in Hin;
    repeat (destruct Hin as [Hin|Hin]; [ subst n; solve_page E | ]);
    contradiction ].

Ltac page_is E :=
  unfold ArchDiagram, renderDetailPanel; rewrite E; lazy -[strict_eq]; reflexivity.

Lemma In_allNodes (l : Layer.t) (n : Node.t) :
  In l LAYERS -> In n (Layer.nodes l) -> In n allNodes.
Proof. intros Hl Hn. unfold allNodes. apply in_flat_map. exists l. auto. Qed.

Lemma NoDup_layer_ids : NoDup (map Layer.id LAYERS).
Proof.
  repeat (constructor; [ simpl; intuition discriminate | ]). constructor.
Qed.

(** X6.  The page holds one button per node of the table and no other
    button: the buttons of the page, in document order, are keyed by the
    node ids in declaration order, and the buttons of each layer row are
    those of the layer's own nodes. *)
Theorem every_node_drawn_once (st : State) :
  exists page, ArchDiagram st = Ok page /\
    map key_of (buttons page) = map (fun n => Some (Node.id n)) allNodes /\
    map (fun row => map key_of (buttons row)) (layerRows page) =
      map (fun l => map (fun n => Some (Node.id n)) (Layer.nodes l)) LAYERS.
Proof.
  page_by_cases st ltac:(fun E =>
    eexists; split; [ page_is E | ]; split; reflexivity).
Qed.

Lemma page_handlers (st : State) :
  exists page, ArchDiagram st = Ok page /\
    handlersIn page =
      flat_map (fun l =>
        (onMouseEnter, onMouseEnterLayer (Layer.id l))
        :: (onMouseLeave, onMouseLeaveLayer)
        :: map (fun n => (onClick, onClickNode st (Node.id n))) (Layer.nodes l)) LAYERS.
Proof.
  page_by_cases st ltac:(fun E =>
    eexists; split; [ page_is E | ]; lazy -[strict_eq]; reflexivity).
Qed.

(** X7.  The only handlers of the page are, per layer, the two pointer
    handlers of its box and the click handlers of its node buttons; the
    header, the arrows, the detail panel and the legend hold none.  Fired in
    a reachable state, each of them leads to a reachable state: no handler
    can select an id that is not a node of the table or hover an id that is
    not a layer. *)
Theorem page_handlers_inventory (st : State) :
  exists page, ArchDiagram st = Ok page /\
    handlersIn page =
      flat_map (fun l =>
        (onMouseEnter, onMouseEnterLayer (Layer.id l))
        :: (onMouseLeave, onMouseLeaveLayer)
        :: map (fun n => (onClick, onClickNode st (Node.id n))) (Layer.nodes l)) LAYERS /\
    (reachable st ->
     Forall (fun h => reachable (dispatch (snd h) st)) (handlersIn page)).
Proof.
  destruct (page_handlers st) as (page & Hpage & Hh).
  exists page. split; [ exact Hpage | ]. split; [ exact Hh | ].
  intros Hr. rewrite Hh. apply Forall_forall. intros [ev a] Hin.
  apply in_flat_map in Hin. destruct Hin as (l & Hl & Hin). cbn [snd].
  destruct Hin as [[= <- <-]|[[= <- <-]|Hin]].
  - apply (reach_step (MouseEnter (Layer.id l))); [ exact Hr | apply In_layer_ids; exact Hl ].
  - apply (reach_step (MouseLeave (Layer.id l))); [ exact Hr | apply In_layer_ids; exact Hl ].
  - apply in_map_iff in Hin. destruct Hin as (n & [= <- <-] & Hn).
    apply (reach_step (Click (Node.id n))); [ exact Hr | ].
    apply In_node_ids. apply (In_allNodes l); assumption.
Qed.

Lemma page_handlers_inventory_witness :
  exists page, ArchDiagram (selectNode "queue" initialState) = Ok page /\
    length (handlersIn page) = 18%nat /\
    Forall (fun h => reachable (dispatch (snd h) (selectNode "queue" initialState)))
           (handlersIn page).
Proof.
  destruct (page_handlers_inventory (selectNode "queue" initialState))
    as (page & Hpage & Hh & Hreach).
  exists page. split; [ exact Hpage | ].
  split; [ rewrite Hh; reflexivity | ].
  apply Hreach.
  apply (reach_step (Click "queue")); [ apply reach_init | simpl; tauto ].
Defined.

(** X8.  Each layer row displays the layer's label, its one-based position
    and the number of layers as "LAYER i / N", and then, for each node of
    the layer in declaration order, the node's label and its language tag in
    upper case; the displayed texts of the rows do not depend on the
    state. *)
Theorem rows_display (st : State) :
  exists page, ArchDiagram st = Ok page /\
    map texts (layerRows page) =
      map (fun il =>
             [ Layer.label (snd il); "LAYER "; decimal (Z.of_nat (fst il) + 1); " / "
             ; decimal (Z.of_nat (length LAYERS)) ]
             ++ flat_map (fun n => [ Node.label n; toUpperCase (Node.lang n) ])
                         (Layer.nodes (snd il)))
          (combine (seq 0 (length LAYERS)) LAYERS).
Proof.
  page_by_cases st ltac:(fun E =>
    eexists; split; [ page_is E | ]; reflexivity).
Qed.

(** Evaluates the render of state [st] around the detail panel, which stays
    a variable: enough for facts about the rows and the legend. *)
Ltac page_with_panel st :=
  let d := fresh "d" in
  let Hd := fresh "Hd" in
  let a := fresh "a" in
  let h := fresh "h" in
  destruct (renderDetailPanel_total st) as (d & Hd & _);
  destruct st as [a h];
  eexists; split;
  [ unfold ArchDiagram; rewrite Hd; lazy -[strict_eq]; reflexivity | ].

Lemma rendered_badges (st : State) :
  exists page, ArchDiagram st = Ok page /\
    Forall (fun n =>
      exists c b badge,
        get_prop LANG_COLORS (Node.lang n) = Some c /\
        buttonOf (Node.id n) page = Some b /\ badgeOf b = Some badge /\
        texts badge = [ toUpperCase (Node.lang n) ] /\
        get_prop (style_of badge) "color" = Some (SStr (LangColor.text c)) /\
        get_prop (style_of badge) "background" = Some (SStr (LangColor.bg c)) /\
        get_prop (style_of badge) "border"
          = Some (SStr ("1px solid " ++ LangColor.border c ++ "40")))
      allNodes.
Proof.
  page_with_panel st.
  unfold allNodes, LAYERS; cbn [flat_map Layer.nodes app].
  repeat (apply Forall_cons || apply Forall_nil).
  all: do 3 eexists; split; [ reflexivity | ].
  all: split; [ lazy -[strict_eq]; reflexivity | ].
  all: repeat split; reflexivity.
Qed.

Lemma panel_badge (st : State) (n : Node.t) (c : LangColor.t) :
  activeNode st = Some n -> get_prop LANG_COLORS (Node.lang n) = Some c ->
  exists panel badge,
    detailPanel st = Some panel /\ panelBadge panel = Some badge /\
    texts badge = [ toUpperCase (Node.lang n) ] /\
    get_prop (style_of badge) "color" = Some (SStr (LangColor.text c)) /\
    get_prop (style_of badge) "background" = Some (SStr (LangColor.bg c)) /\
    get_prop (style_of badge) "border"
      = Some (SStr ("1px solid " ++ LangColor.border c ++ "50")).
Proof.
  intros E Hc. rewrite detailPanel_renderDetailPanel.
  unfold renderDetailPanel. rewrite E, Hc.
  do 2 eexists. repeat split; reflexivity.
Qed.

(** X9.  The badge of a node's button displays the node's language tag in
    upper case in the colours of the tag's [LANG_COLORS] entry (text,
    background, and the border colour followed by "40"); when the node is
    selected, the badge of the detail panel displays the same tag in the
    colours of the same entry, its border colour followed by "50". *)
Theorem badges_use_language_colours (st : State) (n : Node.t) :
  In n allNodes ->
  exists c page b badge,
    get_prop LANG_COLORS (Node.lang n) = Some c /\
    ArchDiagram st = Ok page /\
    buttonOf (Node.id n) page = Some b /\ badgeOf b = Some badge /\
    texts badge = [ toUpperCase (Node.lang n) ] /\
    get_prop (style_of badge) "color" = Some (SStr (LangColor.text c)) /\
    get_prop (style_of badge) "background" = Some (SStr (LangColor.bg c)) /\
    get_prop (style_of badge) "border"
      = Some (SStr ("1px solid " ++ LangColor.border c ++ "40")) /\
    (active st = Some (Node.id n) ->
     exists panel pbadge,
       detailPanel st = Some panel /\ panelBadge panel = Some pbadge /\
       texts pbadge = [ toUpperCase (Node.lang n) ] /\
       get_prop (style_of pbadge) "color" = Some (SStr (LangColor.text c)) /\
       get_prop (style_of pbadge) "background" = Some (SStr (LangColor.bg c)) /\
       get_prop (style_of pbadge) "border"
         = Some (SStr ("1px solid " ++ LangColor.border c ++ "50"))).
Proof.
  intros Hin. destruct (rendered_badges st) as (page & Hpage & Hall).
  rewrite Forall_forall in Hall.
  destruct (Hall n Hin) as (c & b & badge & Hc & Hb & Hbadge & H).
  exists c, page, b, badge.
  repeat (split; [ tauto | ]).
  intros Ha. apply panel_badge; [ | exact Hc ].
  apply activeNode_of_node; assumption.
Qed.

Lemma badges_use_language_colours_witness :
  exists page b badge panel pbadge,
    ArchDiagram (mkState (Some "parser") None) = Ok page /\
    buttonOf "parser" page = Some b /\ badgeOf b = Some badge /\
    get_prop (style_of badge) "border" = Some (SStr "1px solid #ff6b3540") /\
    detailPanel (mkState (Some "parser") None) = Some panel /\
    panelBadge panel = Some pbadge /\
    get_prop (style_of pbadge) "border" = Some (SStr "1px solid #ff6b3550").
Proof.
  assert (Hin : In (Node.mk "parser" "Rust Log Parser" "Rust"
                      "Parses CEF, LEEF, JSON, syslog at wire rate. Memory-safe handling of untrusted input. Emits structured records.")
                   allNodes) by (simpl; tauto).
  destruct (badges_use_language_colours (mkState (Some "parser") None) _ Hin)
    as (c & page & b & badge & Hc & Hpage & Hb & Hbadge & _ & _ & _ & Hborder & Hpanel).
  destruct (Hpanel eq_refl) as (panel & pbadge & Hp & Hpb & _ & _ & _ & Hpborder).
  injection Hc as <-.
  exists page, b, badge, panel, pbadge. repeat split; assumption.
Defined.

(** X10.  Keys are unique among siblings: the layer rows are keyed by the
    layer ids, the buttons of each grid by the ids of the layer's nodes and
    the legend entries by the language tags, in declaration order; every
    one of them has a key, and no two siblings share one.  The layer ids
    and the tags of [LANG_COLORS] themselves have no duplicate. *)
Theorem keys_unique_among_siblings (st : State) :
  NoDup (map Layer.id LAYERS) /\ NoDup (map fst LANG_COLORS) /\
  exists legend page, ArchDiagram st = Ok page /\ legendOf page = Some legend /\
    map key_of (layerRows page) = map (fun l => Some (Layer.id l)) LAYERS /\
    map gridKeys (layerRows page) =
      map (fun l => Some (map (fun n => Some (Node.id n)) (Layer.nodes l))) LAYERS /\
    NoDup (map key_of (layerRows page)) /\
    Forall (fun row => key_of row <> None) (layerRows page) /\
    Forall (fun row =>
      exists grid, gridOf row = Some grid /\
        NoDup (map key_of (children_of grid)) /\
        Forall (fun b => key_of b <> None) (children_of grid)) (layerRows page) /\
    map key_of (children_of legend) = map (fun e => Some (fst e)) LANG_COLORS ++ [ None ].
Proof.
  split; [ exact NoDup_layer_ids | ].
  split; [ repeat (constructor; [ simpl; intuition discriminate | ]); constructor | ].
  eexists. page_with_panel st.
  split; [ reflexivity | ].
  split; [ reflexivity | ].
  split; [ reflexivity | ].
  split; [ lazy -[strict_eq];
           repeat (constructor; [ simpl; intuition discriminate | ]); constructor | ].
  split; [ lazy -[strict_eq]; repeat constructor; discriminate | ].
  split; [ | reflexivity ].
  lazy -[strict_eq].
  repeat (apply Forall_cons || apply Forall_nil).
  all: eexists; split; [ reflexivity | ].
  all: split; [ repeat (constructor; [ simpl; intuition discriminate | ]); constructor
              | repeat constructor; discriminate ].
Qed.

(** X11.  Hovering and selecting draw apart.  Two states with the same
    selection give the same buttons, the same detail panel and the same
    displayed texts, whatever is hovered; two states with the same hovered
    layer give layer boxes with the same style and handlers, whatever is
    selected; the header and the legend are the same in all states. *)
Theorem hover_and_selection_draw_apart (s1 s2 : State) :
  exists p1 p2, ArchDiagram s1 = Ok p1 /\ ArchDiagram s2 = Ok p2 /\
    (active s1 = active s2 ->
     buttons p1 = buttons p2 /\ at_path [2; 2]%nat p1 = at_path [2; 2]%nat p2 /\
     texts p1 = texts p2) /\
    (hoveredLayer s1 = hoveredLayer s2 ->
     map boxLook (layerRows p1) = map boxLook (layerRows p2)) /\
    at_path [2; 0]%nat p1 = at_path [2; 0]%nat p2 /\
    legendOf p1 = legendOf p2.
Proof.
  destruct (renderDetailPanel_total s1) as (d1 & Hd1 & _).
  destruct (renderDetailPanel_total s2) as (d2 & Hd2 & _).
  destruct s1 as [a1 h1], s2 as [a2 h2].
  do 2 eexists.
  split; [ unfold ArchDiagram; rewrite Hd1; lazy -[strict_eq]; reflexivity | ].
  split; [ unfold ArchDiagram; rewrite Hd2; lazy -[strict_eq]; reflexivity | ].
  cbn [active hoveredLayer].
  split; [ | split; [ | split; reflexivity ] ].
  - intros <-.
    rewrite (renderDetailPanel_active (mkState a1 h2) (mkState a1 h1) eq_refl) in Hd2.
    assert (d2 = d1) as -> by congruence.
    repeat split; reflexivity.
  - intros <-. reflexivity.
Qed.

Lemma hover_and_selection_draw_apart_witness :
  exists p1 p2,
    ArchDiagram (mkState (Some "queue") None) = Ok p1 /\
    ArchDiagram (mkState (Some "queue") (Some "sink")) = Ok p2 /\
    buttons p1 = buttons p2 /\ texts p1 = texts p2.
Proof.
  destruct (hover_and_selection_draw_apart
              (mkState (Some "queue") None) (mkState (Some "queue") (Some "sink")))
    as (p1 & p2 & H1 & H2 & Ha & _).
  destruct (Ha eq_refl) as (Hb & _ & Ht).
  exists p1, p2. repeat split; assumption.
Defined.







Lemma mapM_TypeError {A B : Type} (f : A -> Result B) (xs : list A) (x : A) :
  In x xs -> f x = TypeError -> mapM f xs = TypeError.
Proof.
  induction xs as [|y ys IH]; simpl; intros Hin Hx; [ contradiction | ].
  destruct Hin as [->|Hin].
  - rewrite Hx. reflexivity.
  - destruct (f y); [ | reflexivity ]. simpl. rewrite (IH Hin Hx). reflexivity.
Qed.

(** X15.  The latent failure of the render.  For a node whose language tag
    is not a name inherited from [Object.prototype], the node's button
    renders when the tag is a key of [LANG_COLORS] (Python, Go or Rust) and
    throws a [TypeError] when it is not; a layer holding such a node throws
    as a whole, in every state and at every position. *)
Theorem unknown_tag_throws (st : State) (layer : Layer.t) (li : Z) (node : Node.t) :
  ~ In (Node.lang node) inheritedKeys ->
  (In (Node.lang node) [ "Python"; "Go"; "Rust" ] <->
   exists b, renderNode st layer node = Ok b) /\
  (~ In (Node.lang node) [ "Python"; "Go"; "Rust" ] <->
   renderNode st layer node = TypeError) /\
  (In node (Layer.nodes layer) -> ~ In (Node.lang node) [ "Python"; "Go"; "Rust" ] ->
   renderLayer st layer li = TypeError).
Proof.
  intros _.
  assert (Hget : In (Node.lang node) [ "Python"; "Go"; "Rust" ] <->
                 exists c, get_prop LANG_COLORS (Node.lang node) = Some c).
  { unfold LANG_COLORS. cbn [get_prop In].
    destruct (String.eqb_spec "Python" (Node.lang node)) as [E1|E1];
      [ split; [ eexists; reflexivity | tauto ] | ].
    destruct (String.eqb_spec "Go" (Node.lang node)) as [E2|E2];
      [ split; [ eexists; reflexivity | tauto ] | ].
    destruct (String.eqb_spec "Rust" (Node.lang node)) as [E3|E3];
      [ split; [ eexists; reflexivity | tauto ] | ].
    split; [ tauto | intros [c Hc]; discriminate Hc ]. }
  assert (Hok : forall c, get_prop LANG_COLORS (Node.lang node) = Some c ->
                exists b, renderNode st layer node = Ok b).
  { intros c Hc. unfold renderNode. rewrite Hc. eexists. reflexivity. }
  assert (Herr : get_prop LANG_COLORS (Node.lang node) = None ->
                 renderNode st layer node = TypeError).
  { intros Hc. unfold renderNode. rewrite Hc. reflexivity. }
  assert (Hthrow : ~ In (Node.lang node) [ "Python"; "Go"; "Rust" ] ->
                   renderNode st layer node = TypeError).
  { intros Hn. apply Herr.
    destruct (get_prop LANG_COLORS (Node.lang node)) as [c|] eqn:Hc; [ | reflexivity ].
    exfalso. apply Hn. apply Hget. exists c. reflexivity. }
  split; [ | split ].
  - split.
    + intros Hin. apply Hget in Hin. destruct Hin as [c Hc]. apply (Hok c Hc).
    + intros [b Hb].
      destruct (get_prop LANG_COLORS (Node.lang node)) as [c|] eqn:Hc.
      * apply Hget. exists c. reflexivity.
      * rewrite (Herr eq_refl) in Hb. discriminate Hb.
  - split; [ exact Hthrow | ].
    intros Hb Hin. apply Hget in Hin. destruct Hin as [c Hc].
    destruct (Hok c Hc) as [b Hb']. congruence.
  - intros Hin Hn. unfold renderLayer.
    rewrite (mapM_TypeError _ _ node Hin (Hthrow Hn)). reflexivity.
Qed.

Lemma unknown_tag_throws_witness :
  renderNode initialState (Layer.mk "extra" "EXTRA" "#ffffff" [ Node.mk "jvm" "JVM Agent" "Java" "" ])
             (Node.mk "jvm" "JVM Agent" "Java" "") = TypeError /\
  renderLayer initialState
              (Layer.mk "extra" "EXTRA" "#ffffff" [ Node.mk "jvm" "JVM Agent" "Java" "" ]) 4
    = TypeError.
Proof.
  assert (H : ~ In "Java" inheritedKeys) by (simpl; intuition discriminate).
  assert (Hn : ~ In "Java" [ "Python"; "Go"; "Rust" ]) by (simpl; intuition discriminate).
  destruct (unknown_tag_throws initialState
              (Layer.mk "extra" "EXTRA" "#ffffff" [ Node.mk "jvm" "JVM Agent" "Java" "" ]) 4
              (Node.mk "jvm" "JVM Agent" "Java" "") H) as (_ & H2 & H3).
  split; [ apply H2; exact Hn | apply H3; [ simpl; tauto | exact Hn ] ].
Defined.

(** X16.  The legend lists the languages of [LANG_COLORS] in the order the
    object declares them: one entry per language, showing a swatch in the
    language's border colour and the tag in upper case, followed by the
    caption.  The languages listed are exactly those some node of the table
    is written in. *)
Theorem legend_lists_used_languages (st : State) :
  (forall tag, In tag (map fst LANG_COLORS) <->
               exists n, In n allNodes /\ Node.lang n = tag) /\
  exists legend page, ArchDiagram st = Ok page /\ legendOf page = Some legend /\
    texts legend =
      map (fun e => toUpperCase (fst e)) LANG_COLORS
      ++ [ "PYTHON · GO · RUST · MVP STACK" ] /\
    map (fun e => option_map (fun sw => get_prop (style_of sw) "background")
                             (nth_error (children_of e) 0))
        (firstn (length LANG_COLORS) (children_of legend)) =
      map (fun e => Some (Some (SStr (LangColor.border (snd e))))) LANG_COLORS.
Proof.
  split.
  - intros tag. split.
    + simpl. intros [<-|[<-|[<-|[]]]];
        [ exists (nth 0 allNodes (Node.mk "" "" "" ""))
        | exists (nth 3 allNodes (Node.mk "" "" "" ""))
        | exists (nth 5 allNodes (Node.mk "" "" "" "")) ];
        (split; [ simpl; tauto | reflexivity ]).
    + intros (n & Hin & <-). unfold allNodes in Hin. simpl in Hin.
      repeat (destruct Hin as [Hin|Hin]; [ subst n; simpl; tauto | ]).
      contradiction.
  - eexists. page_with_panel st.
    split; [ reflexivity | ]. split; reflexivity.
Qed.

(** X17.  The state reaches a node button only through the test
    [active === node.id], and a layer box only through the test
    [hoveredLayer === layer.id]: between two states in which the test of a
    node has the same outcome, the node's button is the same element, style,
    handler and texts included, and likewise the look of a layer's box.  So
    a click changes no button but the clicked one and the one that was
    selected. *)
Theorem state_reaches_elements_through_tests (s1 s2 : State) :
  exists p1 p2, ArchDiagram s1 = Ok p1 /\ ArchDiagram s2 = Ok p2 /\
    Forall (fun n =>
      strict_eq (active s1) (Node.id n) = strict_eq (active s2) (Node.id n) ->
      buttonOf (Node.id n) p1 = buttonOf (Node.id n) p2) allNodes /\
    Forall (fun l =>
      strict_eq (hoveredLayer s1) (Layer.id l) = strict_eq (hoveredLayer s2) (Layer.id l) ->
      option_map boxLook (rowOf (Layer.id l) p1) =
      option_map boxLook (rowOf (Layer.id l) p2)) LAYERS.
Proof.
  destruct (renderDetailPanel_total s1) as (d1 & Hd1 & _).
  destruct (renderDetailPanel_total s2) as (d2 & Hd2 & _).
  destruct s1 as [a1 h1], s2 as [a2 h2].
  do 2 eexists.
  split; [ unfold ArchDiagram; rewrite Hd1; lazy -[strict_eq]; reflexivity | ].
  split; [ unfold ArchDiagram; rewrite Hd2; lazy -[strict_eq]; reflexivity | ].
  cbn [active hoveredLayer]. split.
  - unfold allNodes, LAYERS; cbn [flat_map Layer.nodes app Node.id].
    repeat (apply Forall_cons || apply Forall_nil).
    all: lazy -[strict_eq]; intros ->; reflexivity.
  - unfold LAYERS; cbn [Layer.id].
    repeat (apply Forall_cons || apply Forall_nil).
    all: lazy -[strict_eq]; intros ->; reflexivity.
Qed.

Lemma state_reaches_elements_through_tests_witness :
  exists p1 p2,
    ArchDiagram (mkState (Some "queue") None) = Ok p1 /\
    ArchDiagram (selectNode "parser" (mkState (Some "queue") None)) = Ok p2 /\
    buttonOf "syslog" p1 = buttonOf "syslog" p2 /\
    buttonOf "monitor" p1 = buttonOf "monitor" p2.
Proof.
  destruct (state_reaches_elements_through_tests
              (mkState (Some "queue") None)
              (selectNode "parser" (mkState (Some "queue") None)))
    as (p1 & p2 & H1 & H2 & Hb & _).
  exists p1, p2. split; [ exact H1 | ]. split; [ exact H2 | ].
  rewrite Forall_forall in Hb. split.
  - apply (Hb (nth 0 allNodes (Node.mk "" "" "" ""))); [ simpl; tauto | reflexivity ].
  - apply (Hb (nth 9 allNodes (Node.mk "" "" "" ""))); [ simpl; tauto | reflexivity ].
Defined.
